(** * flock2: the Gazebo launch file [launch/gazebo_launch.py]

    A shallow embedding of [generate_launch_description] and the properties
    of the launch plan it builds for a roster of Tello drones. *)

From Stdlib Require Import Ascii DecimalString DecimalNat SpecFloat.
From stdpp Require Import gmap strings list fin_maps.

Open Scope string_scope.
Open Scope list_scope.

(** ** The Python fragments the launch file relies on *)

Module Py.

(** [str(n)] on a non-negative [int]: the decimal numeral, no leading zero. *)
Definition str (n : nat) : string :=
  NilZero.string_of_uint (Nat.to_uint n).

(** [enumerate(l, start)]: pairs every element with its running count. *)
Fixpoint enumerate_from {A} (start : nat) (l : list A) : list (nat * A) :=
  match l with
  | [] => []
  | x :: l' => (start, x) :: enumerate_from (S start) l'
  end.

Definition enumerate {A} (l : list A) : list (nat * A) := enumerate_from 0 l.

(** A dict display [{k1: v1, ..., kn: vn}]: keys are stored from left to
    right, a later binding of a key replaces an earlier one. *)
Definition dict {V} (items : list (string * V)) : gmap string V :=
  foldl (fun d kv => <[kv.1 := kv.2]> d) ∅ items.

(** [posixpath]: [b.startswith('/')] and [path.endswith('/')]. *)
Definition startswith_sep (b : string) : bool :=
  match b with
  | String c _ => Ascii.eqb c "/"%char
  | EmptyString => false
  end.

Fixpoint endswith_sep (path : string) : bool :=
  match path with
  | EmptyString => false
  | String c EmptyString => Ascii.eqb c "/"%char
  | String _ rest => endswith_sep rest
  end.

Definition is_empty (path : string) : bool :=
  match path with EmptyString => true | _ => false end.

(** [os.path.join(a, *p)] of [posixpath]: an absolute component restarts
    the path, otherwise components are glued with one separator. *)
Definition os_path_join (a : string) (p : list string) : string :=
  foldl (fun path b =>
           if startswith_sep b then b
           else if is_empty path || endswith_sep path then path +:+ b
           else path +:+ "/" +:+ b)
        a p.

End Py.

Import Py.

(** ** Exceptions *)

Inductive exn : Type :=
| PackageNotFoundError (package_name : string).

Inductive result (A : Type) : Type :=
| Ok (a : A)
| Raise (e : exn).

Arguments Ok {A} a.
Arguments Raise {A} e.

#[global] Instance result_ret : MRet result := fun _ a => Ok a.

#[global] Instance result_bind : MBind result := fun _ _ k r =>
  match r with
  | Ok a => k a
  | Raise e => Raise e
  end.

(** ** The ament resource index

    The index maps the name of an installed package to its share directory;
    [get_package_share_directory] raises for a package that is not installed. *)

Definition get_package_share_directory
    (index : gmap string string) (package_name : string) : result string :=
  match index !! package_name with
  | Some share => Ok share
  | None => Raise (PackageNotFoundError package_name)
  end.

(** ** Launch descriptors *)

(** Parameter values. A Python [float] is a binary64 number, kept here as
    its sign, integer significand and binary exponent. *)
Inductive Value : Type :=
| VBool (b : bool)
| VInt (z : Z)
| VFloat (f : spec_float)
| VStr (s : string)
| VStrList (l : list string).

(** [0.1778] and [-0.035] as the closest binary64 values. *)
Definition float_0_1778 : spec_float :=
  S754_finite false 0x16c226809d4952 (-55).

Definition float_m0_035 : spec_float :=
  S754_finite true 0x11eb851eb851ec (-57).

(** [ExecuteProcess(cmd=..., output=...)]. *)
Record ExecuteProcess : Type := mkExecuteProcess {
  cmd : list string;
  cmd_output : string
}.

(** [Node(package=..., node_executable=..., output=..., ...)]; a keyword the
    call leaves out keeps its default [None]. *)
Record Node : Type := mkNode {
  package : string;
  node_executable : string;
  output : string;
  node_name : option string;
  node_namespace : option string;
  parameters : option (list (gmap string Value));
  arguments : option (list string)
}.

Inductive Action : Type :=
| Process (p : ExecuteProcess)
| RosNode (n : Node).

Record LaunchDescription : Type := mkLaunchDescription {
  entities : list Action
}.

(** ** [generate_launch_description] *)

(** The roster the launch file hard-codes: [drones = ['drone1', 'drone2']]. *)
Definition drones : list string := ["drone1"; "drone2"].

(** The list literal bound to [entities] before the loop: the global
    entities. *)
Definition global_entities
    (world_path map_path : string) (drones : list string) : list Action :=
  [ (* Launch Gazebo, loading tello.world *)
    Process (mkExecuteProcess
      [ "gazebo"; "--verbose";
        "-s"; "libgazebo_ros_init.so";
        "-s"; "libgazebo_ros_factory.so";
        world_path ] "screen");
    (* Load and publish a known map *)
    RosNode (mkNode "fiducial_vlam" "vmap_node" "screen"
      (Some "vmap_node") None
      (Some [ dict [ ("use_sim_time", VBool true);
                     ("marker_length", VFloat float_0_1778);
                     ("marker_map_load_full_filename", VStr map_path);
                     ("make_not_use_map", VInt 0) ] ])
      None);
    (* Rviz *)
    Process (mkExecuteProcess
      [ "rviz2"; "-d"; "install/flock2/share/flock2/launch/two.rviz" ]
      "screen");
    (* Joystick driver *)
    RosNode (mkNode "joy" "joy_node" "screen"
      (Some "joy_node") None
      (Some [ dict [ ("use_sim_time", VBool true) ] ])
      None);
    (* Flock controller *)
    RosNode (mkNode "flock2" "flock_base" "screen"
      (Some "flock_base") None
      (Some [ dict [ ("use_sim_time", VBool true);
                     ("drones", VStrList drones) ] ])
      None) ].

(** [suffix = '_' + str(idx + 1)]. *)
Definition suffix_for (idx : nat) : string := "_" +:+ str (idx + 1).

(** The list one turn of the loop passes to [entities.extend]; the odometry
    filter node is commented out in the source and so is not an element. *)
Definition drone_entities
    (tello_description_path : string) (idx : nat) (namespace : string)
    : list Action :=
  let suffix := suffix_for idx in
  let urdf_path :=
    os_path_join tello_description_path
                 ["urdf"; "tello" +:+ suffix +:+ ".urdf"] in
  [ (* Add a drone to the simulation *)
    RosNode (mkNode "tello_gazebo" "inject_entity.py" "screen"
      None None None
      (Some [urdf_path; "0"; str idx; "1"]));
    (* Localize this drone against the map *)
    RosNode (mkNode "fiducial_vlam" "vloc_node" "screen"
      (Some "vloc_node") (Some namespace)
      (Some [ dict [ ("use_sim_time", VBool true);
                     ("publish_tfs", VInt 1);
                     ("base_frame_id", VStr ("base_link" +:+ suffix));
                     ("map_init_pose_z", VFloat float_m0_035);
                     ("camera_frame_id", VStr ("camera_link" +:+ suffix)) ] ])
      None);
    (* Drone controller *)
    RosNode (mkNode "flock2" "drone_base" "screen"
      (Some "drone_base") (Some namespace)
      (Some [ dict [ ("use_sim_time", VBool true) ] ])
      None) ].

(** The body of [generate_launch_description], with the roster and the
    resource index it reads made explicit. *)
Definition generate_launch_description_with
    (index : gmap string string) (drones : list string)
    : result LaunchDescription :=
  tello_gazebo_path ← get_package_share_directory index "tello_gazebo";
  tello_description_path ←
    get_package_share_directory index "tello_description";
  let world_path :=
    os_path_join tello_gazebo_path ["worlds"; "fiducial.world"] in
  let map_path :=
    os_path_join tello_gazebo_path ["worlds"; "fiducial_map.yaml"] in
  let entities := global_entities world_path map_path drones in
  let entities :=
    foldl (fun entities '(idx, namespace) =>
             entities ++ drone_entities tello_description_path idx namespace)
          entities (enumerate drones) in
  mret (mkLaunchDescription entities).

Definition generate_launch_description (index : gmap string string)
    : result LaunchDescription :=
  generate_launch_description_with index drones.

(** ** Reading a plan *)

(** The program a descriptor starts: the first command token of a process,
    the executable of a node. *)
Definition action_program (a : Action) : option string :=
  match a with
  | Process p => head (cmd p)
  | RosNode n => Some (node_executable n)
  end.

(** The parameter mappings a descriptor carries (none for a process or for
    a node built without [parameters]). *)
Definition action_parameters (a : Action) : list (gmap string Value) :=
  match a with
  | Process _ => []
  | RosNode n => default [] (parameters n)
  end.

Definition action_namespace (a : Action) : option string :=
  match a with
  | Process _ => None
  | RosNode n => node_namespace n
  end.

(** A resource index in which both packages of the launch file are
    installed. *)
Definition example_index : gmap string string :=
  dict [ ("tello_gazebo", "/opt/ros/share/tello_gazebo");
         ("tello_description", "/opt/ros/share/tello_description") ].

(** ** Vocabulary of the statements *)

(** The per-drone part of the plan: one block of [drone_entities] per turn
    of the loop. *)
Definition drone_blocks
    (tello_description_path : string) (drones : list string) : list Action :=
  enumerate drones ≫=
    (fun '(idx, namespace) =>
       drone_entities tello_description_path idx namespace).

Definition world_path_of (tello_gazebo_path : string) : string :=
  os_path_join tello_gazebo_path ["worlds"; "fiducial.world"].

Definition map_path_of (tello_gazebo_path : string) : string :=
  os_path_join tello_gazebo_path ["worlds"; "fiducial_map.yaml"].

(** Both packages resolve: the two lookups the function makes succeed. *)
Definition resolves (index : gmap string string) (gz desc : string) : Prop :=
  index !! "tello_gazebo" = Some gz ∧ index !! "tello_description" = Some desc.

(** C5 as the spec words it: each of the three descriptors emitted for a
    participant has the participant's name as namespace. *)
Definition every_participant_node_in_namespace
    (plan : LaunchDescription) (roster : list string) : Prop :=
  ∀ i name j a,
    roster !! i = Some name → j < 3 →
    entities plan !! (5 + 3 * i + j) = Some a →
    action_namespace a = Some name.

(** Where a descriptor routes the output of what it starts. *)
Definition action_output (a : Action) : string :=
  match a with
  | Process p => cmd_output p
  | RosNode n => output n
  end.

(** The command-line arguments a descriptor passes (none for a process or
    for a node built without [arguments]). *)
Definition action_arguments (a : Action) : list string :=
  match a with
  | Process _ => []
  | RosNode n => default [] (arguments n)
  end.

(** The value bound to [key] in the parameter mapping of the descriptor at
    position [k] of the plan. *)
Definition parameter_at
    (plan : LaunchDescription) (k : nat) (key : string) : option Value :=
  a ← entities plan !! k;
  params ← head (action_parameters a);
  params !! key.

(** Argument number [j] of the descriptor at position [k] of the plan. *)
Definition argument_at
    (plan : LaunchDescription) (k j : nat) : option string :=
  a ← entities plan !! k;
  action_arguments a !! j.

(** The namespaces, in plan order, of the nodes that run [executable]. *)
Definition namespaces_of
    (executable : string) (plan : LaunchDescription) : list string :=
  omap (fun a =>
          match a with
          | RosNode n =>
              if decide (node_executable n = executable)
              then node_namespace n else None
          | Process _ => None
          end)
       (entities plan).

(** The namespace and name under which the runtime registers a named node. *)
Definition qualified_name (a : Action) : option (option string * string) :=
  match a with
  | RosNode n => (fun name => (node_namespace n, name)) <$> node_name n
  | Process _ => None
  end.

(** The separator [os.path.join] writes after [path] before a relative
    component: none after an empty path or a trailing ['/']. *)
Definition joint (path : string) : string :=
  if is_empty path || endswith_sep path then "" else "/".

(** The last clause of C10 as the spec words it: no node descriptor of the
    plan omits ['use_sim_time'] or sets it to [False], that is, every node
    descriptor carries a parameter mapping that sets it to [True]. *)
Definition no_node_omits_use_sim_time (plan : LaunchDescription) : Prop :=
  ∀ n, RosNode n ∈ entities plan →
    ∃ params, params ∈ action_parameters (RosNode n)
              ∧ params !! "use_sim_time" = Some (VBool true).

(** ** The function as the interpreter runs it

    [entities] is one list object, created by the list display and then
    changed in place by [entities.extend] at every turn of the loop. The
    heap holds the list objects of the interpreter by address; a call runs
    on the heap it finds and leaves the heap it made. *)

Definition M (A : Type) : Type :=
  gmap nat (list Action) → result A * gmap nat (list Action).

Definition m_ret {A} (a : A) : M A := fun h => (Ok a, h).

(** An exception ends the call; the heap stays as it was at the raise. *)
Definition m_bind {A B} (m : M A) (k : A → M B) : M B := fun h =>
  match m h with
  | (Ok a, h') => k a h'
  | (Raise e, h') => (Raise e, h')
  end.

(** A computation that does not touch the heap. *)
Definition m_lift {A} (r : result A) : M A := fun h => (r, h).

(** A list display: a new list object at an address not in use. *)
Definition new_list (l : list Action) : M nat := fun h =>
  let a := fresh (dom h) in (Ok a, <[a := l]> h).

(** [list.extend]: the object at address [a] grows in place. *)
Definition list_extend (a : nat) (l : list Action) : M unit := fun h =>
  (Ok tt, alter (fun old => old ++ l) a h).

(** [for x in l: body(x)]. *)
Fixpoint for_each {X} (l : list X) (body : X → M unit) : M unit :=
  match l with
  | [] => m_ret tt
  | x :: l' => m_bind (body x) (fun _ => for_each l' body)
  end.

(** [generate_launch_description] run on a heap; the result is the address
    of the [entities] list that [LaunchDescription(entities)] wraps. *)
Definition generate_launch_description_run
    (index : gmap string string) (drones : list string) : M nat :=
  m_bind (m_lift (get_package_share_directory index "tello_gazebo"))
    (fun tello_gazebo_path =>
  m_bind (m_lift (get_package_share_directory index "tello_description"))
    (fun tello_description_path =>
  let world_path :=
    os_path_join tello_gazebo_path ["worlds"; "fiducial.world"] in
  let map_path :=
    os_path_join tello_gazebo_path ["worlds"; "fiducial_map.yaml"] in
  m_bind (new_list (global_entities world_path map_path drones))
    (fun entities =>
  m_bind (for_each (enumerate drones)
            (fun '(idx, namespace) =>
               list_extend entities
                 (drone_entities tello_description_path idx namespace)))
    (fun _ =>
  m_ret entities)))).

(** Case analysis on the members of the two list literals. *)
Ltac list_cases H :=
  repeat (apply elem_of_cons in H as [H|H]; [subst|]);
  try (by apply elem_of_nil in H).

(** ** The shape of the loop *)

Section Loop.
Context {A B : Type}.
Implicit Types (l : list A) (acc : list B).

Lemma length_enumerate_from l start :
  length (enumerate_from start l) = length l.
Proof.
  revert start. induction l as [|x l IH]; intros start; simpl; [done|].
  by rewrite IH.
Qed.

Lemma enumerate_from_lookup l start i :
  enumerate_from start l !! i = (fun x => (start + i, x)) <$> l !! i.
Proof.
  revert start i. induction l as [|x l IH]; intros start [|i]; simpl.
  - done.
  - done.
  - by rewrite Nat.add_0_r.
  - rewrite IH. by replace (S start + i) with (start + S i) by lia.
Qed.

Lemma foldl_pointwise (f g : list B → A → list B) acc l :
  (∀ acc x, f acc x = g acc x) → foldl f acc l = foldl g acc l.
Proof.
  intros Hfg. revert acc. induction l as [|x l IH]; intros acc; simpl.
  - done.
  - by rewrite Hfg, IH.
Qed.

(** A loop that only extends its accumulator appends the blocks of its
    turns, in turn order. *)
Lemma foldl_extend (body : A → list B) acc l :
  foldl (fun acc x => acc ++ body x) acc l = acc ++ (l ≫= body).
Proof.
  revert acc. induction l as [|x l IH]; intros acc; simpl.
  - by rewrite app_nil_r.
  - by rewrite IH, <- app_assoc.
Qed.

(** With blocks of one fixed size [k], element [j] of block [i] sits at
    position [k * i + j]. *)
Lemma bind_lookup_block (body : A → list B) k l i x j :
  (∀ y, length (body y) = k) →
  l !! i = Some x → j < k →
  (l ≫= body) !! (k * i + j) = body x !! j.
Proof.
  intros Hk. revert i. induction l as [|y l IH]; intros i Hi Hj; [done|].
  change ((y :: l) ≫= body) with (body y ++ (l ≫= body)).
  destruct i as [|i]; simplify_eq/=.
  - rewrite Nat.mul_0_r. simpl. apply lookup_app_l. rewrite Hk. lia.
  - rewrite lookup_app_r by (rewrite Hk; lia).
    rewrite Hk. replace (k * S i + j - k) with (k * i + j) by lia.
    by apply IH.
Qed.

Lemma bind_length_block (body : A → list B) k l :
  (∀ y, length (body y) = k) → length (l ≫= body) = k * length l.
Proof.
  intros Hk. induction l as [|y l IH]; [simpl; lia|].
  change ((y :: l) ≫= body) with (body y ++ (l ≫= body)).
  rewrite length_app, Hk, IH. simpl. lia.
Qed.
End Loop.

Lemma generate_unfold index roster gz desc :
  resolves index gz desc →
  generate_launch_description_with index roster =
    Ok (mkLaunchDescription
          (global_entities (world_path_of gz) (map_path_of gz) roster
           ++ drone_blocks desc roster)).
Proof.
  intros [Hgz Hdesc]. unfold generate_launch_description_with.
  unfold get_package_share_directory. rewrite Hgz, Hdesc.
  unfold mbind, result_bind, mret, result_ret. cbv beta iota zeta.
  do 2 f_equal. unfold drone_blocks. rewrite <- foldl_extend.
  apply foldl_pointwise. by intros acc [idx ns].
Qed.

Lemma drone_entities_length desc idx ns :
  length (drone_entities desc idx ns) = 3.
Proof. done. Qed.

Lemma drone_blocks_lookup desc roster i name j :
  roster !! i = Some name → j < 3 →
  drone_blocks desc roster !! (3 * i + j) = drone_entities desc i name !! j.
Proof.
  intros Hi Hj. unfold drone_blocks.
  rewrite (bind_lookup_block _ 3 _ i (i, name) j); [done| |..|done].
  - by intros [idx ns].
  - unfold enumerate. rewrite enumerate_from_lookup, Hi. done.
Qed.

Lemma drone_blocks_length desc roster :
  length (drone_blocks desc roster) = 3 * length roster.
Proof.
  unfold drone_blocks. rewrite (bind_length_block _ 3).
  - unfold enumerate. by rewrite length_enumerate_from.
  - by intros [idx ns].
Qed.

Lemma plan_lookup_global gz desc roster k :
  k < 5 →
  (global_entities (world_path_of gz) (map_path_of gz) roster
   ++ drone_blocks desc roster) !! k
  = global_entities (world_path_of gz) (map_path_of gz) roster !! k.
Proof. intros Hk. by apply lookup_app_l. Qed.

Lemma plan_lookup_drone gz desc roster i name j :
  roster !! i = Some name → j < 3 →
  (global_entities (world_path_of gz) (map_path_of gz) roster
   ++ drone_blocks desc roster) !! (5 + 3 * i + j)
  = drone_entities desc i name !! j.
Proof.
  intros Hi Hj. rewrite lookup_app_r by (simpl; lia).
  replace (5 + 3 * i + j - length (global_entities _ _ roster))
    with (3 * i + j) by (simpl; lia).
  by apply drone_blocks_lookup.
Qed.

Lemma plan_lookup_drone_first gz desc roster i name :
  roster !! i = Some name →
  (global_entities (world_path_of gz) (map_path_of gz) roster
   ++ drone_blocks desc roster) !! (5 + 3 * i)
  = drone_entities desc i name !! 0.
Proof.
  intros Hi. replace (5 + 3 * i) with (5 + 3 * i + 0) by lia.
  apply plan_lookup_drone; [done|lia].
Qed.

Lemma enumerate_elem_of {A} (l : list A) idx x :
  (idx, x) ∈ enumerate l → l !! idx = Some x.
Proof.
  intros [k Hk]%list_elem_of_lookup. unfold enumerate in Hk.
  rewrite enumerate_from_lookup in Hk.
  destruct (l !! k) as [y|] eqn:Hy; simplify_eq/=. done.
Qed.

(** Every descriptor of a plan is global or belongs to the block of one
    participant. *)
Lemma plan_elem_inv gz desc roster a :
  a ∈ global_entities (world_path_of gz) (map_path_of gz) roster
      ++ drone_blocks desc roster →
  a ∈ global_entities (world_path_of gz) (map_path_of gz) roster
  ∨ ∃ i name, roster !! i = Some name ∧ a ∈ drone_entities desc i name.
Proof.
  intros [Hg|Hd]%elem_of_app; [by left|right].
  unfold drone_blocks in Hd.
  apply list_elem_of_bind in Hd as ([idx ns] & Ha & Hin).
  exists idx, ns. split; [|done]. by apply enumerate_elem_of.
Qed.

(** ** Decimal numerals *)

Lemma to_uint_not_nil n : Nat.to_uint n ≠ Decimal.Nil.
Proof.
  intros Hnil. pose proof (Unsigned.of_to n) as Hn.
  rewrite Hnil in Hn. simpl in Hn. subst n. discriminate Hnil.
Qed.

(** Reading [str n] back as a decimal numeral gives [n]. *)
Lemma str_read_back n :
  Nat.of_uint <$> NilZero.uint_of_string (str n) = Some n.
Proof.
  unfold str. rewrite NilZero.usu by apply to_uint_not_nil.
  simpl. by rewrite Unsigned.of_to.
Qed.

Lemma str_inj n m : str n = str m → n = m.
Proof.
  intros Heq. pose proof (str_read_back n) as Hn.
  rewrite Heq, str_read_back in Hn. by simplify_eq.
Qed.

(** ** Strings and paths *)

Lemma append_cons ch (a b : string) :
  String ch a +:+ b = String ch (a +:+ b).
Proof. reflexivity. Qed.

Lemma append_assoc (a b c : string) : (a +:+ b) +:+ c = a +:+ (b +:+ c).
Proof.
  induction a as [|ch a IH]; [done|]. by rewrite !append_cons, IH.
Qed.

Lemma append_length (a b : string) :
  String.length (a +:+ b) = String.length a + String.length b.
Proof.
  induction a as [|ch a IH]; [done|].
  rewrite append_cons. simpl. by rewrite IH.
Qed.

Lemma append_inv_head (p a b : string) : p +:+ a = p +:+ b → a = b.
Proof.
  induction p as [|ch p IH]; [done|].
  rewrite !append_cons. intros [= Heq]. auto.
Qed.

Lemma append_inv_tail (a b t : string) : a +:+ t = b +:+ t → a = b.
Proof.
  revert b. induction a as [|ch a IH]; intros [|ch' b] Heq.
  - done.
  - apply (f_equal String.length) in Heq.
    rewrite !append_length in Heq. simpl in Heq. lia.
  - apply (f_equal String.length) in Heq.
    rewrite !append_length in Heq. simpl in Heq. lia.
  - rewrite !append_cons in Heq. injection Heq as -> Heq.
    f_equal. by apply IH.
Qed.

Lemma is_empty_append (p s : string) :
  is_empty s = false → is_empty (p +:+ s) = false.
Proof. by destruct p, s. Qed.

Lemma endswith_sep_append (p s : string) :
  is_empty s = false → endswith_sep (p +:+ s) = endswith_sep s.
Proof.
  intros Hs. induction p as [|ch p IH]; [done|].
  change (String ch p +:+ s) with (String ch (p +:+ s)).
  cbn [endswith_sep]. rewrite IH.
  destruct (p +:+ s) eqn:Hps; [|done].
  apply (f_equal is_empty) in Hps. by rewrite is_empty_append in Hps.
Qed.

(** Two relative components under [a]: the result keeps [a] as it is and
    adds the components below it. *)
Lemma os_path_join_under (a b c : string) :
  startswith_sep b = false → startswith_sep c = false →
  is_empty b = false → endswith_sep b = false →
  os_path_join a [b; c] = a +:+ joint a +:+ b +:+ "/" +:+ c.
Proof.
  intros Hb Hc Hne Hend. unfold os_path_join, joint. cbn [foldl].
  rewrite Hb, Hc.
  destruct (is_empty a || endswith_sep a).
  - rewrite is_empty_append, endswith_sep_append, Hend by done.
    cbn [orb]. by rewrite append_assoc.
  - rewrite is_empty_append by (by apply is_empty_append).
    rewrite endswith_sep_append by (by apply is_empty_append).
    rewrite (endswith_sep_append "/" b), Hend by done.
    cbn [orb]. by rewrite !append_assoc.
Qed.

(** ** Properties of the launch plan *)

(** C1: for a roster of N names the plan holds exactly [5 + 3 * N]
    descriptors: the five global ones and three per participant; no
    descriptor of the plan starts the odometry filter. *)
Theorem plan_descriptor_count index roster gz desc :
  resolves index gz desc →
  ∃ plan,
    generate_launch_description_with index roster = Ok plan
    ∧ length (entities plan) = 5 + 3 * length roster
    ∧ length (global_entities (world_path_of gz) (map_path_of gz) roster) = 5
    ∧ (∀ i name, roster !! i = Some name →
         length (drone_entities desc i name) = 3)
    ∧ (∀ a, a ∈ entities plan → action_program a ≠ Some "filter_node").
Proof.
  intros Hres. eexists. split; [by apply generate_unfold|].
  cbn [entities]. split; [|split; [done|split; [done|]]].
  - rewrite length_app, drone_blocks_length. simpl. lia.
  - intros a [Hg|(i & name & _ & Hd)]%plan_elem_inv.
    + list_cases Hg; done.
    + list_cases Hd; done.
Qed.

Lemma plan_descriptor_count_witness :
  resolves example_index
           "/opt/ros/share/tello_gazebo" "/opt/ros/share/tello_description"
  ∧ ∃ plan,
      generate_launch_description_with example_index ["a"; "b"; "c"] = Ok plan
      ∧ length (entities plan) = 14.
Proof.
  assert (Hres : resolves example_index "/opt/ros/share/tello_gazebo"
                          "/opt/ros/share/tello_description")
    by (split; reflexivity).
  split; [exact Hres|].
  destruct (plan_descriptor_count example_index ["a"; "b"; "c"] _ _ Hres)
    as (plan & Hplan & Hlen & _).
  exists plan. split; [exact Hplan | exact Hlen].
Defined.

(** C2: for the participant at zero-based index [i] the suffix is
    ["_" + str(i + 1)]; it is what the URDF file name, the base frame id and
    the camera frame id of that participant end in. Index 0 gives ["_1"]
    (['base_link_1'], ['tello_1.urdf']), index 1 gives ["_2"]. *)
Theorem participant_suffix index roster gz desc i name :
  resolves index gz desc →
  roster !! i = Some name →
  ∃ plan spawn vloc params,
    generate_launch_description_with index roster = Ok plan
    ∧ suffix_for i = "_" +:+ str (i + 1)
    ∧ entities plan !! (5 + 3 * i) = Some (RosNode spawn)
    ∧ node_executable spawn = "inject_entity.py"
    ∧ arguments spawn ≫= head =
        Some (os_path_join desc ["urdf"; "tello" +:+ suffix_for i +:+ ".urdf"])
    ∧ entities plan !! (5 + 3 * i + 1) = Some (RosNode vloc)
    ∧ node_executable vloc = "vloc_node"
    ∧ parameters vloc = Some [params]
    ∧ params !! "base_frame_id" = Some (VStr ("base_link" +:+ suffix_for i))
    ∧ params !! "camera_frame_id" =
        Some (VStr ("camera_link" +:+ suffix_for i))
    ∧ suffix_for 0 = "_1" ∧ suffix_for 1 = "_2"
    ∧ "base_link" +:+ suffix_for 0 = "base_link_1"
    ∧ "tello" +:+ suffix_for 0 +:+ ".urdf" = "tello_1.urdf".
Proof.
  intros Hres Hi. eexists _, _, _, _.
  split; [by apply generate_unfold|]. cbn [entities].
  split; [done|].
  split; [by rewrite (plan_lookup_drone_first _ _ _ _ name)|].
  split; [done|]. split; [done|].
  split; [by rewrite (plan_lookup_drone _ _ _ _ name) by (done || lia)|].
  split; [done|]. split; [done|].
  repeat split; reflexivity.
Qed.

Lemma participant_suffix_witness :
  ∃ plan spawn,
    generate_launch_description_with example_index ["a"; "b"; "c"] = Ok plan
    ∧ entities plan !! 11 = Some (RosNode spawn)
    ∧ arguments spawn ≫= head =
        Some "/opt/ros/share/tello_description/urdf/tello_3.urdf".
Proof.
  destruct (participant_suffix example_index ["a"; "b"; "c"]
              "/opt/ros/share/tello_gazebo"
              "/opt/ros/share/tello_description" 2 "c")
    as (plan & spawn & vloc & params & Hplan & _ & Hspawn & _ & Hurdf & _).
  - split; reflexivity.
  - reflexivity.
  - exists plan, spawn. split; [exact Hplan|]. split; [exact Hspawn|].
    exact Hurdf.
Defined.

(** C3: for the participant at zero-based index [i] the third argument of
    the entity-injection command is [str(i)], the index itself, which is
    never the number [i + 1] its suffix carries. *)
Theorem spawn_position_argument index roster gz desc i name :
  resolves index gz desc →
  roster !! i = Some name →
  ∃ plan spawn urdf_path,
    generate_launch_description_with index roster = Ok plan
    ∧ entities plan !! (5 + 3 * i) = Some (RosNode spawn)
    ∧ node_executable spawn = "inject_entity.py"
    ∧ arguments spawn = Some [urdf_path; "0"; str i; "1"]
    ∧ arguments spawn ≫= (.!! 2) = Some (str i)
    ∧ str i ≠ str (i + 1)
    ∧ suffix_for i = "_" +:+ str (i + 1).
Proof.
  intros Hres Hi. eexists _, _, _.
  split; [by apply generate_unfold|]. cbn [entities].
  split; [by rewrite (plan_lookup_drone_first _ _ _ _ name)|].
  split; [done|]. split; [done|]. split; [done|].
  split; [|done]. intros Heq%str_inj. lia.
Qed.

Lemma spawn_position_argument_witness :
  ∃ plan spawn,
    generate_launch_description_with example_index ["a"; "b"; "c"] = Ok plan
    ∧ entities plan !! 11 = Some (RosNode spawn)
    ∧ arguments spawn ≫= (.!! 2) = Some "2".
Proof.
  destruct (spawn_position_argument example_index ["a"; "b"; "c"]
              "/opt/ros/share/tello_gazebo"
              "/opt/ros/share/tello_description" 2 "c")
    as (plan & spawn & urdf & Hplan & Hspawn & _ & _ & Harg & _).
  - split; reflexivity.
  - reflexivity.
  - exists plan, spawn. split; [exact Hplan|]. split; [exact Hspawn|].
    exact Harg.
Defined.

(** C4: the coordinator node [flock_base] carries a ['drones'] parameter
    whose value is the whole input roster, same names in the same order; it
    is the only [flock_base] node of the plan. *)
Theorem coordinator_drones_parameter index roster gz desc :
  resolves index gz desc →
  ∃ plan coordinator params,
    generate_launch_description_with index roster = Ok plan
    ∧ entities plan !! 4 = Some (RosNode coordinator)
    ∧ node_executable coordinator = "flock_base"
    ∧ parameters coordinator = Some [params]
    ∧ params !! "drones" = Some (VStrList roster)
    ∧ (∀ n, RosNode n ∈ entities plan →
         node_executable n = "flock_base" → n = coordinator).
Proof.
  intros Hres. eexists _, _, _.
  split; [by apply generate_unfold|]. cbn [entities].
  split; [by rewrite plan_lookup_global by lia|].
  split; [done|]. split; [done|]. split; [done|].
  intros n [Hg|(i & name & _ & Hd)]%plan_elem_inv Hexe.
  - list_cases Hg; by simplify_eq.
  - list_cases Hd; by simplify_eq.
Qed.

Lemma coordinator_drones_parameter_witness :
  ∃ plan coordinator params,
    generate_launch_description_with example_index ["a"; "b"; "c"] = Ok plan
    ∧ entities plan !! 4 = Some (RosNode coordinator)
    ∧ parameters coordinator = Some [params]
    ∧ params !! "drones" = Some (VStrList ["a"; "b"; "c"]).
Proof.
  destruct (coordinator_drones_parameter example_index ["a"; "b"; "c"]
              "/opt/ros/share/tello_gazebo"
              "/opt/ros/share/tello_description")
    as (plan & n & params & Hplan & Hn & _ & Hps & Hdrones & _).
  - split; reflexivity.
  - exists plan, n, params. repeat split; assumption.
Defined.

(** C5, as the code has it: the localization node and the drone-controller
    node of a participant have exactly the participant's name as namespace;
    the entity-spawn node is built without a namespace. *)
Theorem participant_namespaces index roster gz desc i name :
  resolves index gz desc →
  roster !! i = Some name →
  ∃ plan spawn vloc controller,
    generate_launch_description_with index roster = Ok plan
    ∧ entities plan !! (5 + 3 * i) = Some (RosNode spawn)
    ∧ node_executable spawn = "inject_entity.py"
    ∧ node_namespace spawn = None
    ∧ entities plan !! (5 + 3 * i + 1) = Some (RosNode vloc)
    ∧ node_executable vloc = "vloc_node"
    ∧ node_namespace vloc = Some name
    ∧ entities plan !! (5 + 3 * i + 2) = Some (RosNode controller)
    ∧ node_executable controller = "drone_base"
    ∧ node_namespace controller = Some name.
Proof.
  intros Hres Hi. eexists _, _, _, _.
  split; [by apply generate_unfold|]. cbn [entities].
  split; [by rewrite (plan_lookup_drone_first _ _ _ _ name)|].
  split; [done|]. split; [done|].
  split; [by rewrite (plan_lookup_drone _ _ _ _ name) by (done || lia)|].
  split; [done|]. split; [done|].
  split; [by rewrite (plan_lookup_drone _ _ _ _ name) by (done || lia)|].
  done.
Qed.

Lemma participant_namespaces_witness :
  ∃ plan vloc controller,
    generate_launch_description_with example_index ["a"; "b"; "c"] = Ok plan
    ∧ entities plan !! 12 = Some (RosNode vloc)
    ∧ node_namespace vloc = Some "c"
    ∧ entities plan !! 13 = Some (RosNode controller)
    ∧ node_namespace controller = Some "c".
Proof.
  destruct (participant_namespaces example_index ["a"; "b"; "c"]
              "/opt/ros/share/tello_gazebo"
              "/opt/ros/share/tello_description" 2 "c")
    as (plan & spawn & vloc & ctl & Hplan & _ & _ & _
        & Hvloc & _ & Hvns & Hctl & _ & Hcns).
  - split; reflexivity.
  - reflexivity.
  - exists plan, vloc, ctl. repeat split; assumption.
Defined.

(** C5 as stated fails on the hard-coded roster: the entity-spawn node
    emitted for ['drone1'] is built without a namespace. *)
Lemma spawn_node_outside_namespace :
  ∃ plan,
    generate_launch_description example_index = Ok plan
    ∧ ¬ every_participant_node_in_namespace plan drones.
Proof.
  eexists. split; [vm_compute; reflexivity|].
  intros Hall. specialize (Hall 0 "drone1" 0 _ eq_refl (Nat.lt_0_succ 2) eq_refl).
  discriminate Hall.
Qed.

(** C6: for the roster ['drone1', 'drone2'] the plan holds a [vloc_node]
    in namespace ['drone2'] with [base_frame_id = 'base_link_2'] and
    [camera_frame_id = 'camera_link_2'], and the entity-spawn command of
    that participant (the one loading [tello_2.urdf]) has an argument list
    ending in ['1', '1']. *)
Theorem two_drone_scenario index gz desc :
  resolves index gz desc →
  ∃ plan vloc params spawn args,
    generate_launch_description index = Ok plan
    ∧ drones = ["drone1"; "drone2"]
    ∧ RosNode vloc ∈ entities plan
    ∧ node_executable vloc = "vloc_node"
    ∧ node_namespace vloc = Some "drone2"
    ∧ parameters vloc = Some [params]
    ∧ params !! "base_frame_id" = Some (VStr "base_link_2")
    ∧ params !! "camera_frame_id" = Some (VStr "camera_link_2")
    ∧ RosNode spawn ∈ entities plan
    ∧ node_executable spawn = "inject_entity.py"
    ∧ arguments spawn = Some args
    ∧ head args = Some (os_path_join desc ["urdf"; "tello_2.urdf"])
    ∧ ["1"; "1"] `suffix_of` args.
Proof.
  intros Hres. eexists _, _, _, _, _.
  split; [by apply generate_unfold|]. cbn [entities].
  split; [done|].
  split.
  { apply (list_elem_of_lookup_2 _ (5 + 3 * 1 + 1)).
    rewrite (plan_lookup_drone _ _ _ _ "drone2") by (done || lia).
    reflexivity. }
  split; [done|]. split; [done|]. split; [done|].
  split; [reflexivity|]. split; [reflexivity|].
  split.
  { apply (list_elem_of_lookup_2 _ (5 + 3 * 1)).
    rewrite (plan_lookup_drone_first _ _ _ _ "drone2") by done.
    reflexivity. }
  split; [done|]. split; [done|]. split; [done|].
  by eexists [_; _].
Qed.

Lemma two_drone_scenario_witness :
  ∃ plan spawn args,
    generate_launch_description example_index = Ok plan
    ∧ RosNode spawn ∈ entities plan
    ∧ arguments spawn = Some args
    ∧ head args = Some "/opt/ros/share/tello_description/urdf/tello_2.urdf"
    ∧ ["1"; "1"] `suffix_of` args.
Proof.
  destruct (two_drone_scenario example_index
              "/opt/ros/share/tello_gazebo"
              "/opt/ros/share/tello_description")
    as (plan & vloc & params & spawn & args & Hplan & _ & _ & _ & _ & _ & _
        & _ & Hin & _ & Hargs & Hhead & Hend).
  - split; reflexivity.
  - exists plan, spawn, args. repeat split; assumption.
Defined.

(** *** Invocations on a heap *)

Lemma list_extend_lookup a l content (h : gmap nat (list Action)) :
  h !! a = Some content →
  list_extend a l h = (Ok tt, <[a := content ++ l]> h).
Proof.
  intros Ha. unfold list_extend. f_equal. apply map_eq. intros k.
  rewrite lookup_alter, lookup_insert.
  case_decide; [subst k; by rewrite Ha|done].
Qed.

(** A loop whose turns only extend the list at [a] leaves that list grown
    by the blocks of its turns, and nothing else changed. *)
Lemma for_each_extend {X} (f : X → list Action) (body : X → M unit)
    a (l : list X) content (h : gmap nat (list Action)) :
  (∀ x, body x = list_extend a (f x)) →
  h !! a = Some content →
  for_each l body h = (Ok tt, <[a := content ++ (l ≫= f)]> h).
Proof.
  intros Hbody. revert content h.
  induction l as [|x l IH]; intros content h Ha.
  - cbn [for_each]. unfold m_ret. f_equal.
    change ([] ≫= f) with (@nil Action).
    by rewrite app_nil_r, insert_id.
  - cbn [for_each]. unfold m_bind.
    rewrite Hbody, (list_extend_lookup _ _ content) by done.
    rewrite (IH (content ++ f x)) by apply lookup_insert_eq.
    rewrite insert_insert_eq.
    change ((x :: l) ≫= f) with (f x ++ (l ≫= f)).
    by rewrite app_assoc.
Qed.

(** What one call does to the heap: a list object at a new address, holding
    the plan; every other object as it was. *)
Lemma run_unfold index roster gz desc (h : gmap nat (list Action)) :
  resolves index gz desc →
  generate_launch_description_run index roster h =
    (Ok (fresh (dom h)),
     <[fresh (dom h) :=
         global_entities (world_path_of gz) (map_path_of gz) roster
         ++ drone_blocks desc roster]> h).
Proof.
  intros [Hgz Hdesc]. unfold generate_launch_description_run.
  unfold get_package_share_directory. rewrite Hgz, Hdesc.
  unfold m_bind at 1 2 3. unfold m_lift, new_list. cbv beta iota zeta.
  unfold m_bind.
  rewrite (for_each_extend
             (fun '(idx, namespace) => drone_entities desc idx namespace)
             _ (fresh (dom h)) _
             (global_entities (world_path_of gz) (map_path_of gz) roster)).
  - unfold m_ret. by rewrite insert_insert_eq.
  - by intros [idx namespace].
  - apply lookup_insert_eq.
Qed.

Lemma run_raises_gazebo index roster (h : gmap nat (list Action)) :
  index !! "tello_gazebo" = None →
  generate_launch_description_run index roster h
  = (Raise (PackageNotFoundError "tello_gazebo"), h)
  ∧ generate_launch_description_with index roster
    = Raise (PackageNotFoundError "tello_gazebo").
Proof.
  intros Hgz. unfold generate_launch_description_run.
  unfold generate_launch_description_with, get_package_share_directory.
  by rewrite Hgz.
Qed.

Lemma run_raises_description index roster gz (h : gmap nat (list Action)) :
  index !! "tello_gazebo" = Some gz →
  index !! "tello_description" = None →
  generate_launch_description_run index roster h
  = (Raise (PackageNotFoundError "tello_description"), h)
  ∧ generate_launch_description_with index roster
    = Raise (PackageNotFoundError "tello_description").
Proof.
  intros Hgz Hdesc. unfold generate_launch_description_run.
  unfold generate_launch_description_with, get_package_share_directory.
  by rewrite Hgz, Hdesc.
Qed.

(** C7: two invocations on the same roster and the same two resolved share
    directories return structurally identical plans, whatever the heaps
    they start from and whatever else the two environments hold. Each
    invocation puts its plan in a list object of its own, at an address
    that was not in use, and changes no object that existed before: nothing
    it leaves behind can influence a later invocation. When a package is
    missing both raise the same exception and leave their heaps as found. *)
Theorem invocations_agree index1 index2 roster
    (h1 h2 : gmap nat (list Action)) :
  index1 !! "tello_gazebo" = index2 !! "tello_gazebo" →
  index1 !! "tello_description" = index2 !! "tello_description" →
  (∃ a1 a2 h1' h2' content,
      generate_launch_description_run index1 roster h1 = (Ok a1, h1')
      ∧ generate_launch_description_run index2 roster h2 = (Ok a2, h2')
      ∧ h1' !! a1 = Some content ∧ h2' !! a2 = Some content
      ∧ generate_launch_description_with index1 roster
        = Ok (mkLaunchDescription content)
      ∧ generate_launch_description_with index2 roster
        = Ok (mkLaunchDescription content)
      ∧ (a1 ∉ dom h1) ∧ (a2 ∉ dom h2)
      ∧ (∀ a, a ≠ a1 → h1' !! a = h1 !! a)
      ∧ (∀ a, a ≠ a2 → h2' !! a = h2 !! a))
  ∨ (∃ e,
      generate_launch_description_run index1 roster h1 = (Raise e, h1)
      ∧ generate_launch_description_run index2 roster h2 = (Raise e, h2)
      ∧ generate_launch_description_with index1 roster = Raise e
      ∧ generate_launch_description_with index2 roster = Raise e).
Proof.
  intros Hgz Hdesc.
  destruct (index1 !! "tello_gazebo") as [gz|] eqn:Hgz1;
    [destruct (index1 !! "tello_description") as [desc|] eqn:Hdesc1|].
  - left.
    assert (Hres1 : resolves index1 gz desc) by done.
    assert (Hres2 : resolves index2 gz desc) by done.
    eexists _, _, _, _, _.
    split; [by apply (run_unfold _ _ gz desc)|].
    split; [by apply (run_unfold _ _ gz desc)|].
    split; [apply lookup_insert_eq|]. split; [apply lookup_insert_eq|].
    split; [by apply generate_unfold|]. split; [by apply generate_unfold|].
    split; [apply is_fresh|]. split; [apply is_fresh|].
    split; intros a Ha; (by rewrite lookup_insert_ne).
  - right. exists (PackageNotFoundError "tello_description").
    destruct (run_raises_description index1 roster gz h1) as [-> ->];
      [done..|].
    by destruct (run_raises_description index2 roster gz h2) as [-> ->].
  - right. exists (PackageNotFoundError "tello_gazebo").
    destruct (run_raises_gazebo index1 roster h1) as [-> ->]; [done|].
    by destruct (run_raises_gazebo index2 roster h2) as [-> ->].
Qed.

(** The second of two invocations in a row, started on the heap the first
    one left, with one more package installed in between. *)
Lemma invocations_agree_witness :
  let h1 := (generate_launch_description_run example_index ["a"; "b"] ∅).2 in
  let index2 := <["joy" := "/opt/ros/share/joy"]> example_index in
  ∃ a1 a2 h2 content,
    generate_launch_description_run example_index ["a"; "b"] ∅ = (Ok a1, h1)
    ∧ generate_launch_description_run index2 ["a"; "b"] h1 = (Ok a2, h2)
    ∧ a1 ≠ a2
    ∧ h2 !! a1 = Some content ∧ h2 !! a2 = Some content
    ∧ length content = 11.
Proof.
  intros h1 index2.
  destruct (invocations_agree example_index index2 ["a"; "b"] ∅ h1)
    as [(a1 & a2 & h1' & h2 & content & Hrun1 & Hrun2 & Hc1 & Hc2 & Hpure
         & _ & _ & Hfresh2 & _ & Hframe2)
       |(e & Hrun1 & _ & Hpure & _)].
  - reflexivity.
  - reflexivity.
  - assert (h1' = h1) as -> by (unfold h1; by rewrite Hrun1).
    assert (Hne : a1 ≠ a2).
    { intros <-. apply Hfresh2, elem_of_dom. by eexists. }
    exists a1, a2, h2, content.
    split; [exact Hrun1|]. split; [exact Hrun2|]. split; [exact Hne|].
    split; [by rewrite Hframe2|]. split; [exact Hc2|].
    vm_compute in Hpure. by injection Hpure as <-.
  - vm_compute in Hpure. discriminate Hpure.
Defined.

(** C8: the plan starts with the simulator process, followed by the map
    node and the other global descriptors (visualizer, joystick,
    coordinator); everything from position 5 on is per-participant, and the
    block of the participant at index [i] occupies positions [5 + 3 * i] to
    [5 + 3 * i + 2], so the blocks follow the order of the roster. *)
Theorem plan_order index roster gz desc :
  resolves index gz desc →
  ∃ plan,
    generate_launch_description_with index roster = Ok plan
    ∧ action_program <$> take 5 (entities plan) =
        [ Some "gazebo"; Some "vmap_node"; Some "rviz2";
          Some "joy_node"; Some "flock_base" ]
    ∧ take 5 (entities plan) =
        global_entities (world_path_of gz) (map_path_of gz) roster
    ∧ (∀ i name, roster !! i = Some name →
         take 3 (drop (5 + 3 * i) (entities plan)) =
           drone_entities desc i name)
    ∧ (∀ (k : nat) a, (5 ≤ k)%nat → entities plan !! k = Some a →
         ∃ i name j,
           k = 5 + 3 * i + j ∧ j < 3 ∧ roster !! i = Some name
           ∧ drone_entities desc i name !! j = Some a).
Proof.
  intros Hres. eexists. split; [by apply generate_unfold|]. cbn [entities].
  assert (Htake : take 5 (global_entities (world_path_of gz) (map_path_of gz)
                            roster ++ drone_blocks desc roster)
                  = global_entities (world_path_of gz) (map_path_of gz) roster)
    by done.
  split; [by rewrite Htake|]. split; [done|]. split.
  - intros i name Hi. apply list_eq. intros j.
    destruct (decide (j < 3)) as [Hj|Hj].
    + rewrite lookup_take_lt, lookup_drop by done.
      by apply plan_lookup_drone.
    + rewrite lookup_take_ge by lia. symmetry.
      apply lookup_ge_None_2. rewrite drone_entities_length. lia.
  - intros k a Hk Ha.
    assert (Hlt : k < 5 + 3 * length roster).
    { apply lookup_lt_Some in Ha.
      rewrite length_app, drone_blocks_length in Ha. simpl in Ha. lia. }
    assert (Hdiv : (k - 5) `div` 3 < length roster)
      by (apply Nat.Div0.div_lt_upper_bound; lia).
    destruct (lookup_lt_is_Some_2 _ _ Hdiv) as [name Hname].
    pose proof (Nat.div_mod_eq (k - 5) 3) as Hk5.
    pose proof (Nat.mod_upper_bound (k - 5) 3 ltac:(lia)) as Hmod.
    exists ((k - 5) `div` 3), name, ((k - 5) `mod` 3).
    split; [lia|]. split; [done|]. split; [done|].
    rewrite <- (plan_lookup_drone gz desc roster) by done.
    rewrite <- Ha. f_equal. lia.
Qed.

Lemma plan_order_witness :
  ∃ plan,
    generate_launch_description_with example_index ["a"; "b"; "c"] = Ok plan
    ∧ action_program <$> entities plan =
        [ Some "gazebo"; Some "vmap_node"; Some "rviz2";
          Some "joy_node"; Some "flock_base";
          Some "inject_entity.py"; Some "vloc_node"; Some "drone_base";
          Some "inject_entity.py"; Some "vloc_node"; Some "drone_base";
          Some "inject_entity.py"; Some "vloc_node"; Some "drone_base" ]
    ∧ action_namespace <$> drop 5 (entities plan) =
        [ None; Some "a"; Some "a";
          None; Some "b"; Some "b";
          None; Some "c"; Some "c" ].
Proof.
  destruct (plan_order example_index ["a"; "b"; "c"]
              "/opt/ros/share/tello_gazebo"
              "/opt/ros/share/tello_description")
    as (plan & Hplan & _).
  - split; reflexivity.
  - exists plan. split; [exact Hplan|].
    vm_compute in Hplan. injection Hplan as <-. split; reflexivity.
Defined.

(** C9: for the empty roster the function returns, without raising, the
    plan made of exactly the five global descriptors: simulator process,
    map-loader node, visualizer process, joystick node, coordinator node. *)
Theorem empty_roster_plan index gz desc :
  resolves index gz desc →
  ∃ plan,
    generate_launch_description_with index [] = Ok plan
    ∧ entities plan =
        global_entities (world_path_of gz) (map_path_of gz) []
    ∧ length (entities plan) = 5
    ∧ action_program <$> entities plan =
        [ Some "gazebo"; Some "vmap_node"; Some "rviz2";
          Some "joy_node"; Some "flock_base" ].
Proof.
  intros Hres. eexists. split; [by apply generate_unfold|].
  cbn [entities]. change (drone_blocks desc []) with (@nil Action).
  by rewrite app_nil_r.
Qed.

Lemma empty_roster_plan_witness :
  ∃ plan,
    generate_launch_description_with example_index [] = Ok plan
    ∧ length (entities plan) = 5.
Proof.
  destruct (empty_roster_plan example_index
              "/opt/ros/share/tello_gazebo"
              "/opt/ros/share/tello_description")
    as (plan & Hplan & _ & Hlen & _).
  - split; reflexivity.
  - exists plan. split; [exact Hplan | exact Hlen].
Defined.

(** C10, as the code has it: every node of the plan that carries a
    parameter mapping, that is [vmap_node], [joy_node], [flock_base] and each
    participant's [vloc_node] and [drone_base], has ['use_sim_time'] set to
    [True] in it, and none sets it to [False]; the entity-spawn node is
    built without parameters and so carries no ['use_sim_time'] at all. *)
Theorem use_sim_time_everywhere index roster gz desc :
  resolves index gz desc →
  ∃ plan,
    generate_launch_description_with index roster = Ok plan
    ∧ (∀ a params, a ∈ entities plan → params ∈ action_parameters a →
         params !! "use_sim_time" = Some (VBool true))
    ∧ (∀ n, RosNode n ∈ entities plan →
         match parameters n with
         | Some ps =>
             node_executable n ∈
               ["vmap_node"; "joy_node"; "flock_base";
                "vloc_node"; "drone_base"]
             ∧ ∃ params, ps = [params]
                 ∧ params !! "use_sim_time" = Some (VBool true)
         | None => node_executable n = "inject_entity.py"
         end)
    ∧ parameter_at plan 1 "use_sim_time" = Some (VBool true)
    ∧ parameter_at plan 3 "use_sim_time" = Some (VBool true)
    ∧ parameter_at plan 4 "use_sim_time" = Some (VBool true)
    ∧ (∀ i name, roster !! i = Some name →
         parameter_at plan (5 + 3 * i) "use_sim_time" = None
         ∧ parameter_at plan (5 + 3 * i + 1) "use_sim_time" =
             Some (VBool true)
         ∧ parameter_at plan (5 + 3 * i + 2) "use_sim_time" =
             Some (VBool true)).
Proof.
  intros Hres. eexists. split; [by apply generate_unfold|].
  unfold parameter_at. cbn [entities].
  split; [|split; [|split; [|split; [|split]]]].
  3-5: by rewrite plan_lookup_global by lia.
  3: { intros i name Hi.
       rewrite (plan_lookup_drone_first _ _ _ _ name) by done.
       rewrite !(plan_lookup_drone _ _ _ _ name) by (done || lia).
       done. }
  - intros a params [Hg|(i & name & _ & Hd)]%plan_elem_inv Hin.
    + list_cases Hg; simpl in Hin; list_cases Hin; reflexivity.
    + list_cases Hd; simpl in Hin; list_cases Hin; reflexivity.
  - intros n [Hg|(i & name & _ & Hd)]%plan_elem_inv.
    + list_cases Hg; simplify_eq; simpl;
        (split; [set_solver|eexists; split; reflexivity]).
    + list_cases Hd; simplify_eq; simpl; [done|..];
        (split; [set_solver|eexists; split; reflexivity]).
Qed.

Lemma use_sim_time_everywhere_witness :
  ∃ plan,
    generate_launch_description_with example_index ["a"; "b"; "c"] = Ok plan
    ∧ ∀ a params, a ∈ entities plan → params ∈ action_parameters a →
        params !! "use_sim_time" = Some (VBool true).
Proof.
  destruct (use_sim_time_everywhere example_index ["a"; "b"; "c"]
              "/opt/ros/share/tello_gazebo"
              "/opt/ros/share/tello_description")
    as (plan & Hplan & Hall & _).
  - split; reflexivity.
  - exists plan. split; [exact Hplan | exact Hall].
Defined.

(** C10 as stated fails on the hard-coded roster: the entity-spawn node of
    ['drone1'], at position 5 of the plan, is a node descriptor that omits
    ['use_sim_time']. *)
Lemma spawn_node_omits_use_sim_time :
  ∃ plan,
    generate_launch_description example_index = Ok plan
    ∧ parameter_at plan 5 "use_sim_time" = None
    ∧ ¬ no_node_omits_use_sim_time plan.
Proof.
  eexists. split; [vm_compute; reflexivity|]. split; [reflexivity|].
  intros Hall.
  destruct (Hall (mkNode "tello_gazebo" "inject_entity.py" "screen"
                    None None None
                    (Some ["/opt/ros/share/tello_description/urdf/tello_1.urdf";
                           "0"; "0"; "1"])))
    as (params & Hin & _).
  - by apply (list_elem_of_lookup_2 _ 5).
  - by apply elem_of_nil in Hin.
Qed.

(** ** Failure of the package lookups *)

(** X1: without the [tello_gazebo] package the function raises
    [PackageNotFoundError('tello_gazebo')], whatever the roster and whether
    or not [tello_description] is installed. *)
Theorem missing_gazebo_package index roster :
  index !! "tello_gazebo" = None →
  generate_launch_description_with index roster
  = Raise (PackageNotFoundError "tello_gazebo").
Proof.
  intros Hgz. unfold generate_launch_description_with.
  unfold get_package_share_directory. by rewrite Hgz.
Qed.

Lemma missing_gazebo_package_witness :
  generate_launch_description_with
    (dict [("tello_description", "/opt/ros/share/tello_description")])
    ["a"; "b"]
  = Raise (PackageNotFoundError "tello_gazebo").
Proof.
  apply (missing_gazebo_package
           (dict [("tello_description", "/opt/ros/share/tello_description")])
           ["a"; "b"]).
  reflexivity.
Defined.

(** X2: with [tello_gazebo] installed and [tello_description] missing the
    function raises [PackageNotFoundError('tello_description')]: no plan is
    returned, not even the global descriptors that need no URDF file. *)
Theorem missing_description_package index roster gz :
  index !! "tello_gazebo" = Some gz →
  index !! "tello_description" = None →
  generate_launch_description_with index roster
  = Raise (PackageNotFoundError "tello_description").
Proof.
  intros Hgz Hdesc. unfold generate_launch_description_with.
  unfold get_package_share_directory. by rewrite Hgz, Hdesc.
Qed.

Lemma missing_description_package_witness :
  generate_launch_description_with
    (dict [("tello_gazebo", "/opt/ros/share/tello_gazebo")]) []
  = Raise (PackageNotFoundError "tello_description").
Proof.
  apply (missing_description_package
           (dict [("tello_gazebo", "/opt/ros/share/tello_gazebo")]) []
           "/opt/ros/share/tello_gazebo"); reflexivity.
Defined.

(** X3: the function returns a plan exactly when both packages are
    installed; the roster plays no part in whether it succeeds. *)
Theorem returns_iff_packages_installed index roster :
  (∃ plan, generate_launch_description_with index roster = Ok plan)
  ↔ is_Some (index !! "tello_gazebo")
    ∧ is_Some (index !! "tello_description").
Proof.
  split.
  - intros [plan Hplan]. unfold generate_launch_description_with in Hplan.
    unfold get_package_share_directory in Hplan.
    destruct (index !! "tello_gazebo") as [gz|]; [|done].
    by destruct (index !! "tello_description") as [desc|].
  - intros [[gz Hgz] [desc Hdesc]]. eexists.
    by apply (generate_unfold _ _ gz desc).
Qed.

(** ** Resource paths *)

(** X4: the world file the simulator loads and the map file [vmap_node]
    loads are both under the share directory of [tello_gazebo], in its
    [worlds] folder: the share directory is kept as it is, followed by one
    separator unless it is empty or already ends in one. *)
Theorem world_and_map_paths index roster gz desc :
  resolves index gz desc →
  ∃ plan simulator,
    generate_launch_description_with index roster = Ok plan
    ∧ entities plan !! 0 = Some (Process simulator)
    ∧ last (cmd simulator) =
        Some (gz +:+ joint gz +:+ "worlds/fiducial.world")
    ∧ parameter_at plan 1 "marker_map_load_full_filename" =
        Some (VStr (gz +:+ joint gz +:+ "worlds/fiducial_map.yaml")).
Proof.
  intros Hres. eexists _, _.
  split; [by apply generate_unfold|]. cbn [entities].
  split; [by rewrite plan_lookup_global by lia|].
  unfold parameter_at. cbn [entities]. rewrite plan_lookup_global by lia.
  unfold world_path_of, map_path_of.
  rewrite !os_path_join_under by done. split; reflexivity.
Qed.

Lemma world_and_map_paths_witness :
  ∃ plan,
    generate_launch_description_with example_index ["a"] = Ok plan
    ∧ parameter_at plan 1 "marker_map_load_full_filename" =
        Some (VStr "/opt/ros/share/tello_gazebo/worlds/fiducial_map.yaml").
Proof.
  destruct (world_and_map_paths example_index ["a"]
              "/opt/ros/share/tello_gazebo"
              "/opt/ros/share/tello_description")
    as (plan & sim & Hplan & _ & _ & Hmap).
  - split; reflexivity.
  - exists plan. split; [exact Hplan | exact Hmap].
Defined.

Lemma urdf_path_under desc i :
  os_path_join desc ["urdf"; "tello" +:+ suffix_for i +:+ ".urdf"]
  = desc +:+ joint desc +:+ "urdf/tello_" +:+ str (i + 1) +:+ ".urdf".
Proof. by rewrite os_path_join_under. Qed.

(** X5: the URDF file passed to the spawn command of the participant at
    index [i] is [urdf/tello_<i+1>.urdf] under the share directory of
    [tello_description], which is kept as it is. *)
Theorem urdf_path_of_participant index roster gz desc i name :
  resolves index gz desc →
  roster !! i = Some name →
  ∃ plan,
    generate_launch_description_with index roster = Ok plan
    ∧ argument_at plan (5 + 3 * i) 0 =
        Some (desc +:+ joint desc +:+ "urdf/tello_" +:+ str (i + 1)
              +:+ ".urdf").
Proof.
  intros Hres Hi. eexists. split; [by apply generate_unfold|].
  unfold argument_at. cbn [entities].
  rewrite (plan_lookup_drone_first _ _ _ _ name) by done.
  by rewrite <- urdf_path_under.
Qed.

Lemma urdf_path_of_participant_witness :
  ∃ plan,
    generate_launch_description_with
      (dict [ ("tello_gazebo", "/gz/"); ("tello_description", "/desc/") ])
      ["a"; "b"] = Ok plan
    ∧ argument_at plan 8 0 = Some "/desc/urdf/tello_2.urdf".
Proof.
  destruct (urdf_path_of_participant
              (dict [ ("tello_gazebo", "/gz/");
                      ("tello_description", "/desc/") ])
              ["a"; "b"] "/gz/" "/desc/" 1 "b")
    as (plan & Hplan & Hurdf).
  - split; reflexivity.
  - reflexivity.
  - exists plan. split; [exact Hplan | exact Hurdf].
Defined.

(** ** Participants do not share resources *)

Lemma vloc_frame_ids gz desc roster i name :
  roster !! i = Some name →
  let plan :=
    mkLaunchDescription
      (global_entities (world_path_of gz) (map_path_of gz) roster
       ++ drone_blocks desc roster) in
  parameter_at plan (5 + 3 * i + 1) "base_frame_id" =
    Some (VStr ("base_link" +:+ suffix_for i))
  ∧ parameter_at plan (5 + 3 * i + 1) "camera_frame_id" =
    Some (VStr ("camera_link" +:+ suffix_for i)).
Proof.
  intros Hi plan. unfold parameter_at, plan. cbn [entities].
  rewrite (plan_lookup_drone _ _ _ _ name) by (done || lia).
  split; reflexivity.
Qed.

Lemma spawn_arguments gz desc roster i name :
  roster !! i = Some name →
  let plan :=
    mkLaunchDescription
      (global_entities (world_path_of gz) (map_path_of gz) roster
       ++ drone_blocks desc roster) in
  argument_at plan (5 + 3 * i) 0 =
    Some (desc +:+ joint desc +:+ "urdf/tello_" +:+ str (i + 1) +:+ ".urdf")
  ∧ argument_at plan (5 + 3 * i) 2 = Some (str i).
Proof.
  intros Hi plan. unfold argument_at, plan. cbn [entities].
  rewrite (plan_lookup_drone_first _ _ _ _ name) by done.
  split; [|done]. by rewrite <- urdf_path_under.
Qed.

(** X6: two different positions of the roster never get the same
    coordinate frames: the [base_frame_id] and the [camera_frame_id] of
    their localization nodes are set and differ, even when the two
    participants carry the same name. *)
Theorem frame_ids_distinct index roster gz desc i j name_i name_j :
  resolves index gz desc →
  roster !! i = Some name_i → roster !! j = Some name_j → i ≠ j →
  ∃ plan,
    generate_launch_description_with index roster = Ok plan
    ∧ is_Some (parameter_at plan (5 + 3 * i + 1) "base_frame_id")
    ∧ parameter_at plan (5 + 3 * i + 1) "base_frame_id"
      ≠ parameter_at plan (5 + 3 * j + 1) "base_frame_id"
    ∧ is_Some (parameter_at plan (5 + 3 * i + 1) "camera_frame_id")
    ∧ parameter_at plan (5 + 3 * i + 1) "camera_frame_id"
      ≠ parameter_at plan (5 + 3 * j + 1) "camera_frame_id".
Proof.
  intros Hres Hi Hj Hne. eexists. split; [by apply generate_unfold|].
  destruct (vloc_frame_ids gz desc roster i name_i Hi) as [-> ->].
  destruct (vloc_frame_ids gz desc roster j name_j Hj) as [-> ->].
  split; [done|]. split.
  { intros [= Heq%append_inv_head%str_inj]. lia. }
  split; [done|].
  intros [= Heq%append_inv_head%str_inj]. lia.
Qed.

Lemma frame_ids_distinct_witness :
  ∃ plan,
    generate_launch_description_with example_index ["a"; "a"] = Ok plan
    ∧ parameter_at plan 6 "base_frame_id"
      ≠ parameter_at plan 9 "base_frame_id".
Proof.
  destruct (frame_ids_distinct example_index ["a"; "a"]
              "/opt/ros/share/tello_gazebo"
              "/opt/ros/share/tello_description" 0 1 "a" "a")
    as (plan & Hplan & _ & Hbase & _).
  - split; reflexivity.
  - reflexivity.
  - reflexivity.
  - lia.
  - exists plan. split; [exact Hplan | exact Hbase].
Defined.

(** X7: two different positions of the roster are never spawned from the
    same URDF file nor at the same spawn coordinate: argument 0 and
    argument 2 of their spawn commands are set and differ. *)
Theorem spawn_arguments_distinct index roster gz desc i j name_i name_j :
  resolves index gz desc →
  roster !! i = Some name_i → roster !! j = Some name_j → i ≠ j →
  ∃ plan,
    generate_launch_description_with index roster = Ok plan
    ∧ is_Some (argument_at plan (5 + 3 * i) 0)
    ∧ argument_at plan (5 + 3 * i) 0 ≠ argument_at plan (5 + 3 * j) 0
    ∧ is_Some (argument_at plan (5 + 3 * i) 2)
    ∧ argument_at plan (5 + 3 * i) 2 ≠ argument_at plan (5 + 3 * j) 2.
Proof.
  intros Hres Hi Hj Hne. eexists. split; [by apply generate_unfold|].
  destruct (spawn_arguments gz desc roster i name_i Hi) as [-> ->].
  destruct (spawn_arguments gz desc roster j name_j Hj) as [-> ->].
  split; [done|]. split.
  { intros [= Heq]. do 3 apply append_inv_head in Heq.
    apply append_inv_tail, str_inj in Heq. lia. }
  split; [done|].
  intros [= Heq%str_inj]. done.
Qed.

Lemma spawn_arguments_distinct_witness :
  ∃ plan,
    generate_launch_description_with example_index ["a"; "a"] = Ok plan
    ∧ argument_at plan 5 2 ≠ argument_at plan 8 2.
Proof.
  destruct (spawn_arguments_distinct example_index ["a"; "a"]
              "/opt/ros/share/tello_gazebo"
              "/opt/ros/share/tello_description" 0 1 "a" "a")
    as (plan & Hplan & _ & _ & _ & Hpos).
  - split; reflexivity.
  - reflexivity.
  - reflexivity.
  - lia.
  - exists plan. split; [exact Hplan | exact Hpos].
Defined.

(** ** Namespaces and node names *)

Lemma omap_drone_blocks {C} (g : Action → option C) (h : string → list C)
    desc (l : list string) start :
  (∀ idx name, omap g (drone_entities desc idx name) = h name) →
  omap g (enumerate_from start l ≫=
            (fun '(idx, namespace) => drone_entities desc idx namespace))
  = l ≫= h.
Proof.
  intros Hblock. revert start.
  induction l as [|name l IH]; intros start; [done|].
  cbn [enumerate_from].
  change ((?x :: ?k) ≫= ?f) with (f x ++ (k ≫= f)).
  by rewrite omap_app, Hblock, IH.
Qed.

Lemma bind_singleton {A} (l : list A) : l ≫= (fun x => [x]) = l.
Proof.
  induction l as [|x l IH]; [done|].
  change ((x :: l) ≫= (fun x => [x])) with (x :: (l ≫= (fun x => [x]))).
  by rewrite IH.
Qed.

Lemma bind_empty {A B} (l : list A) : l ≫= (fun _ => @nil B) = [].
Proof. induction l as [|x l IH]; [done|]. exact IH. Qed.

(** X8: read in plan order, the namespaces of the localization nodes are
    the roster, and so are the namespaces of the drone-controller nodes:
    one node of each kind per roster entry, duplicates included, in roster
    order. No other executable is started in a namespace. *)
Theorem namespaces_follow_roster index roster gz desc :
  resolves index gz desc →
  ∃ plan,
    generate_launch_description_with index roster = Ok plan
    ∧ namespaces_of "vloc_node" plan = roster
    ∧ namespaces_of "drone_base" plan = roster
    ∧ (∀ executable,
         executable ≠ "vloc_node" → executable ≠ "drone_base" →
         namespaces_of executable plan = []).
Proof.
  intros Hres. eexists. split; [by apply generate_unfold|].
  unfold namespaces_of, drone_blocks, enumerate. cbn [entities].
  rewrite !omap_app. split; [|split].
  - rewrite (omap_drone_blocks _ (fun name => [name])) by done.
    by rewrite bind_singleton.
  - rewrite (omap_drone_blocks _ (fun name => [name])) by done.
    by rewrite bind_singleton.
  - intros executable Hvloc Hbase. rewrite omap_app.
    rewrite (omap_drone_blocks _ (fun _ => [])).
    + rewrite bind_empty. cbn. by repeat case_decide.
    + intros idx name. cbn. by repeat case_decide.
Qed.

Lemma namespaces_follow_roster_witness :
  ∃ plan,
    generate_launch_description_with example_index ["b"; "a"; "b"] = Ok plan
    ∧ namespaces_of "drone_base" plan = ["b"; "a"; "b"].
Proof.
  destruct (namespaces_follow_roster example_index ["b"; "a"; "b"]
              "/opt/ros/share/tello_gazebo"
              "/opt/ros/share/tello_description")
    as (plan & Hplan & _ & Hbase & _).
  - split; reflexivity.
  - exists plan. split; [exact Hplan | exact Hbase].
Defined.

Lemma qualified_names_of_plan gz desc roster :
  omap qualified_name
       (global_entities (world_path_of gz) (map_path_of gz) roster
        ++ drone_blocks desc roster)
  = [ (None, "vmap_node"); (None, "joy_node"); (None, "flock_base") ]
    ++ (roster ≫=
          (fun name => [ (Some name, "vloc_node");
                         (Some name, "drone_base") ])).
Proof.
  rewrite omap_app. f_equal. unfold drone_blocks, enumerate.
  by apply omap_drone_blocks.
Qed.

(** X9: the named nodes of the plan have pairwise different qualified
    names (namespace, node name) exactly when no name occurs twice in the
    roster; a repeated name is not rejected, it yields two nodes under one
    qualified name. *)
Theorem qualified_names_unique_iff index roster gz desc :
  resolves index gz desc →
  ∃ plan,
    generate_launch_description_with index roster = Ok plan
    ∧ (NoDup (omap qualified_name (entities plan)) ↔ NoDup roster).
Proof.
  intros Hres. eexists. split; [by apply generate_unfold|].
  cbn [entities]. rewrite qualified_names_of_plan.
  set (h := fun name : string =>
              [ (Some name, "vloc_node"); (Some name, "drone_base") ]).
  split.
  - intros [_ [_ Hnd]]%NoDup_app. clear -Hnd.
    induction roster as [|x l IH]; [constructor|].
    change ((x :: l) ≫= h) with (h x ++ (l ≫= h)) in Hnd.
    apply NoDup_app in Hnd as (_ & Hdisj & Hl).
    constructor; [|by apply IH].
    intros Hx. apply (Hdisj (Some x, "vloc_node")).
    + by left.
    + apply list_elem_of_bind. exists x. split; [by left|done].
  - intros Hnd. apply NoDup_app. split; [|split].
    + repeat (constructor; [intros Hin; list_cases Hin; done|]).
      constructor.
    + intros y Hy (x & Hin & _)%list_elem_of_bind.
      unfold h in Hin. list_cases Hy; list_cases Hin; done.
    + apply NoDup_bind; [| |done].
      * intros x1 x2 y _ _ H1 H2. unfold h in H1, H2.
        list_cases H1; list_cases H2; by simplify_eq.
      * intros x _. unfold h.
        repeat (constructor; [intros Hin; list_cases Hin; done|]).
        constructor.
Qed.

Lemma qualified_names_unique_iff_witness :
  ∃ plan,
    generate_launch_description_with example_index ["a"; "a"] = Ok plan
    ∧ ¬ NoDup (omap qualified_name (entities plan)).
Proof.
  destruct (qualified_names_unique_iff example_index ["a"; "a"]
              "/opt/ros/share/tello_gazebo"
              "/opt/ros/share/tello_description")
    as (plan & Hplan & Hiff).
  - split; reflexivity.
  - exists plan. split; [exact Hplan|].
    intros Hnd%Hiff. apply NoDup_cons in Hnd as [Hnot _].
    apply Hnot. by left.
Defined.

(** ** Growing the roster *)

Lemma enumerate_from_app {A} (l k : list A) start :
  enumerate_from start (l ++ k)
  = enumerate_from start l ++ enumerate_from (start + length l) k.
Proof.
  revert start. induction l as [|x l IH]; intros start.
  - cbn [app length enumerate_from]. by rewrite Nat.add_0_r.
  - cbn [app length enumerate_from]. rewrite IH.
    by replace (S start + length l) with (start + S (length l)) by lia.
Qed.

Lemma drone_blocks_snoc desc roster name :
  drone_blocks desc (roster ++ [name])
  = drone_blocks desc roster ++ drone_entities desc (length roster) name.
Proof.
  unfold drone_blocks, enumerate.
  rewrite enumerate_from_app, bind_app. f_equal.
Qed.

(** X10: adding a name at the end of the roster leaves every descriptor
    already in the plan where it was and as it was, except the coordinator:
    the new coordinator is the old one with the ['drones'] parameter
    rebound to the longer roster and nothing else changed. The three
    descriptors of the newcomer, built for the index [len(roster)], are
    appended at the end. *)
Theorem roster_extension index roster name gz desc :
  resolves index gz desc →
  ∃ plan plan' coordinator coordinator' params,
    generate_launch_description_with index roster = Ok plan
    ∧ generate_launch_description_with index (roster ++ [name]) = Ok plan'
    ∧ (∀ k : nat, k ≠ 4 → (k < length (entities plan))%nat →
         entities plan' !! k = entities plan !! k)
    ∧ entities plan !! 4 = Some (RosNode coordinator)
    ∧ entities plan' !! 4 = Some (RosNode coordinator')
    ∧ parameters coordinator = Some [params]
    ∧ params !! "drones" = Some (VStrList roster)
    ∧ coordinator' =
        mkNode (package coordinator) (node_executable coordinator)
               (output coordinator) (node_name coordinator)
               (node_namespace coordinator)
               (Some [<["drones" := VStrList (roster ++ [name])]> params])
               (arguments coordinator)
    ∧ length (entities plan') = length (entities plan) + 3
    ∧ drop (length (entities plan)) (entities plan') =
        drone_entities desc (length roster) name.
Proof.
  intros Hres. eexists _, _, _, _, _.
  split; [by apply generate_unfold|]. split; [by apply generate_unfold|].
  cbn [entities]. rewrite drone_blocks_snoc.
  split; [|split; [by rewrite plan_lookup_global by lia|
           split; [by rewrite lookup_app_l by (simpl; lia)|
           split; [done|split; [done|split; [|split]]]]]].
  - intros k Hk4 Hlt. rewrite length_app in Hlt.
    destruct (decide (k < 5)) as [Hk|Hk].
    + rewrite !lookup_app_l by (simpl; lia).
      do 5 (destruct k as [|k]; [done|]). lia.
    + rewrite !(lookup_app_r (global_entities _ _ _)) by (simpl; lia).
      cbn [length global_entities] in Hlt |- *.
      apply lookup_app_l. lia.
  - cbn [package node_executable output node_name node_namespace arguments].
    reflexivity.
  - rewrite !length_app, drone_entities_length. simpl. lia.
  - rewrite length_app. rewrite app_assoc.
    rewrite drop_app_length'; [done|].
    by rewrite !length_app.
Qed.

Lemma roster_extension_witness :
  ∃ plan plan',
    generate_launch_description_with example_index ["a"; "b"] = Ok plan
    ∧ generate_launch_description_with example_index (["a"; "b"] ++ ["c"])
      = Ok plan'
    ∧ drop (length (entities plan)) (entities plan') =
        drone_entities "/opt/ros/share/tello_description" 2 "c".
Proof.
  destruct (roster_extension example_index ["a"; "b"] "c"
              "/opt/ros/share/tello_gazebo"
              "/opt/ros/share/tello_description")
    as (plan & plan' & n & n' & params & Hplan & Hplan'
        & _ & _ & _ & _ & _ & _ & _ & Hdrop).
  - split; reflexivity.
  - exists plan, plan'. split; [exact Hplan|]. split; [exact Hplan'|].
    exact Hdrop.
Defined.

(** ** Output routing *)

(** X11: every descriptor of the plan, process or node, global or
    per-participant, routes its output to ['screen']. *)
Theorem all_output_on_screen index roster gz desc :
  resolves index gz desc →
  ∃ plan,
    generate_launch_description_with index roster = Ok plan
    ∧ ∀ a, a ∈ entities plan → action_output a = "screen".
Proof.
  intros Hres. eexists. split; [by apply generate_unfold|].
  cbn [entities].
  intros a [Hg|(i & name & _ & Hd)]%plan_elem_inv.
  - list_cases Hg; done.
  - list_cases Hd; done.
Qed.

Lemma all_output_on_screen_witness :
  ∃ plan,
    generate_launch_description_with example_index ["a"; "b"; "c"] = Ok plan
    ∧ ∀ a, a ∈ entities plan → action_output a = "screen".
Proof.
  destruct (all_output_on_screen example_index ["a"; "b"; "c"]
              "/opt/ros/share/tello_gazebo"
              "/opt/ros/share/tello_description")
    as (plan & Hplan & Hall).
  - split; reflexivity.
  - exists plan. split; [exact Hplan | exact Hall].
Defined.
